(** * Adstock transformations of pymc_marketing.mmm.components.adstock

    A shallow embedding of the module: the transformation classes with their
    class attributes, object construction (keyword binding followed by the
    attribute assignments of [__init__]), the delegating [function] methods,
    [sample_curve], the registry [ADSTOCK_TRANSFORMATIONS] and the helper
    [_get_adstock_function].

    Python objects live in a store and are referred to by location, so object
    identity and attribute assignment are explicit; exceptions and emitted
    warnings are threaded through a small state-and-error monad. *)

From Stdlib Require Import ZArith String PrimFloat.
From stdpp Require Import base option list gmap strings pretty.

Local Open Scope string_scope.
Local Open Scope Z_scope.
Local Open Scope list_scope.

(** ** Values *)

(** Modelled from the spec: the enumerations [ConvMode] and [WeibullType] are
    declared in pymc_marketing.mmm.transformers, which is not among the
    sources.  The module names the members [ConvMode.After] and
    [WeibullType.PDF] (its defaults) and mentions the kind CDF; the spec calls
    the former the convolution-mode enumeration. *)
Inductive ConvMode := After | Before | Overlap.
Inductive WeibullType := PDF | CDF.

(** A prior descriptor [{"dist": ..., "kwargs": {...}}]: a distribution family
    name and its hyperparameters, in the order of the dict literal. *)
Record prior := Prior { dist : string; kwargs : list (string * Z) }.

(** The Python values that reach this module as constructor arguments. Python
    does not enforce the annotations of [__init__], so attributes hold values
    of any of these shapes. *)
Inductive value :=
  | VNone
  | VBool (b : bool)
  | VInt (n : Z)
  | VStr (s : string)
  | VMode (m : ConvMode)
  | VKind (k : WeibullType)
  | VPriors (d : list (string * prior)).

(** ** Classes and their class attributes *)

Inductive class := GeometricAdstock | DelayedAdstock | WeibullAdstock.

Global Instance class_eq_dec : EqDecision class.
Proof. solve_decision. Defined.

Definition lookup_name (cls : class) : string :=
  match cls with
  | GeometricAdstock => "geometric"
  | DelayedAdstock => "delayed"
  | WeibullAdstock => "weibull"
  end.

Definition default_priors (cls : class) : list (string * prior) :=
  match cls with
  | GeometricAdstock =>
      [("alpha", Prior "Beta" [("alpha", 1); ("beta", 3)])]
  | DelayedAdstock =>
      [("alpha", Prior "Beta" [("alpha", 1); ("beta", 3)]);
       ("theta", Prior "HalfNormal" [("sigma", 1)])]
  | WeibullAdstock =>
      [("lam", Prior "HalfNormal" [("sigma", 1)]);
       ("k", Prior "HalfNormal" [("sigma", 1)])]
  end.

(** The parameter list of each class's [def function(...)], as written. *)
Definition function_parameters (cls : class) : list string :=
  match cls with
  | GeometricAdstock => ["self"; "x"; "alpha"]
  | DelayedAdstock => ["self"; "x"; "alpha"; "theta"]
  | WeibullAdstock => ["self"; "x"; "lam"; "k"]
  end.

(** ** Insertion-ordered dictionaries

    [ADSTOCK_TRANSFORMATIONS] and the prior tables are Python dicts whose key
    order is observable (the error message lists the keys), so they are kept
    as association lists with dict semantics for assignment. *)

Fixpoint dict_set {V} (d : list (string * V)) (k : string) (v : V) : list (string * V) :=
  match d with
  | [] => [(k, v)]
  | (k', v') :: d' =>
      if decide (k' = k) then (k, v) :: d' else (k', v') :: dict_set d' k v
  end.

Fixpoint dict_get {V} (d : list (string * V)) (k : string) : option V :=
  match d with
  | [] => None
  | (k', v') :: d' => if decide (k' = k) then Some v' else dict_get d' k
  end.

Definition dict_keys {V} (d : list (string * V)) : list string := d.*1.

Definition dict_contains {V} (d : list (string * V)) (k : string) : bool :=
  bool_decide (k ∈ dict_keys d).

(** [{cls.lookup_name: cls for cls in [...]}] *)
Definition ADSTOCK_TRANSFORMATIONS : list (string * class) :=
  foldl (λ d cls, dict_set d (lookup_name cls) cls) []
        [GeometricAdstock; DelayedAdstock; WeibullAdstock].

(** [str] of a list of strings, as the f-string prints [list(d.keys())]. The
    registry keys contain no quote or escape, so [repr] of a key is the key
    between single quotes. *)
Definition repr_str (s : string) : string := "'" +:+ s +:+ "'".

Definition str_list (l : list string) : string :=
  "[" +:+ String.concat ", " (repr_str <$> l) +:+ "]".

(** ** Store, exceptions and warnings *)

Inductive exn :=
  | ValueError (msg : string)
  | TypeError
  | IndexError
  | KeyError
  | AttributeError.

Inductive result (A : Type) :=
  | Ok (a : A)
  | Raise (e : exn).
Arguments Ok {A} a.
Arguments Raise {A} e.

Inductive warning_category := UserWarning | DeprecationWarning.

Record warning := Warning { message : string; category : warning_category }.

Definition loc := nat.

(** An instance: its class and its [__dict__]. *)
Record object := Object { class_of : class; attrs : gmap string value }.

Record state := State { heap : list object; warnings : list warning }.

Definition M (A : Type) : Type := state → result A * state.

Definition ret {A} (a : A) : M A := λ σ, (Ok a, σ).

Definition raise {A} (e : exn) : M A := λ σ, (Raise e, σ).

Definition lift {A} (r : result A) : M A := λ σ, (r, σ).

Definition bind {A B} (m : M A) (k : A → M B) : M B := λ σ,
  match m σ with
  | (Ok a, σ') => k a σ'
  | (Raise e, σ') => (Raise e, σ')
  end.

Notation "'let*' x ':=' m 'in' k" := (bind m (λ x, k))
  (at level 10, x name, m at level 100, k at level 200, only parsing).

(** Allocation of a fresh instance with an empty [__dict__]. *)
Definition new (cls : class) : M loc := λ σ,
  (Ok (length (heap σ)), State (heap σ ++ [Object cls ∅]) (warnings σ)).

(** [self.name = v] *)
Definition setattr (self : loc) (name : string) (v : value) : M unit := λ σ,
  match heap σ !! self with
  | Some o =>
      (Ok tt,
       State (<[self := Object (class_of o) (<[name := v]> (attrs o))]> (heap σ))
             (warnings σ))
  | None => (Raise AttributeError, σ)
  end.

(** [self.name] *)
Definition getattr (self : loc) (name : string) : M value := λ σ,
  match heap σ !! self with
  | Some o =>
      match attrs o !! name with
      | Some v => (Ok v, σ)
      | None => (Raise AttributeError, σ)
      end
  | None => (Raise AttributeError, σ)
  end.

Definition deref (self : loc) : M object := λ σ,
  match heap σ !! self with
  | Some o => (Ok o, σ)
  | None => (Raise AttributeError, σ)
  end.

(** [warnings.warn(msg, cat)]: the call is recorded; the warning filters of
    the interpreter are not part of the module. *)
Definition warn (msg : string) (cat : warning_category) : M unit := λ σ,
  (Ok tt, State (heap σ) (warnings σ ++ [Warning msg cat])).

(** ** Calling a class with keyword arguments *)

(** A keyword that names no parameter of [__init__] is a [TypeError]. *)
Definition no_unexpected (params : list string) (kw : gmap string value) : result unit :=
  if bool_decide (dom kw ⊆ list_to_set params) then Ok tt else Raise TypeError.

(** The value bound to one parameter: the keyword argument if given, else the
    default, else a [TypeError] for the missing required argument. *)
Definition argument (kw : gmap string value) (name : string) (default : option value)
  : result value :=
  match kw !! name, default with
  | Some v, _ => Ok v
  | None, Some d => Ok d
  | None, None => Raise TypeError
  end.

(** Modelled from the spec: the base class [Transformation] (module
    pymc_marketing.mmm.components.base) is not among the sources. The spec
    describes a transformation as a declarative record with a name and a prior
    mapping and no lifecycle beyond construction; its initialiser is taken to
    record the priors and the prefix it is handed, and nothing else. What the
    base class really keeps of them, under which names, and which priors it
    refuses, is its own business: the properties below speak of the
    attributes that [AdstockTransformation.__init__] and
    [WeibullAdstock.__init__] assign themselves. *)
Definition Transformation___init__ (self : loc) (priors prefix : value) : M unit :=
  let* _ := setattr self "priors" priors in
  setattr self "prefix" prefix.

Definition AdstockTransformation___init__
    (self : loc) (l_max normalize mode priors prefix : value) : M unit :=
  let* _ := setattr self "l_max" l_max in
  let* _ := setattr self "normalize" normalize in
  let* _ := setattr self "mode" mode in
  Transformation___init__ self priors prefix.

Definition WeibullAdstock___init__
    (self : loc) (l_max normalize kind mode priors prefix : value) : M unit :=
  let* _ := setattr self "kind" kind in
  AdstockTransformation___init__ self l_max normalize mode priors prefix.

(** The parameters of the [__init__] a class resolves to, with their defaults
    ([None] marks a required parameter). [GeometricAdstock] and
    [DelayedAdstock] inherit [AdstockTransformation.__init__]. *)
Definition init_parameters (cls : class) : list (string * option value) :=
  match cls with
  | WeibullAdstock =>
      [("l_max", None); ("normalize", Some (VBool true)); ("kind", Some (VKind PDF));
       ("mode", Some (VMode After)); ("priors", Some VNone); ("prefix", Some VNone)]
  | _ =>
      [("l_max", None); ("normalize", Some (VBool true));
       ("mode", Some (VMode After)); ("priors", Some VNone); ("prefix", Some VNone)]
  end.

Definition default_of (cls : class) (name : string) : option value :=
  mjoin (dict_get (init_parameters cls) name).

(** Calling the class with the keywords [kw]: they are bound to the
    parameters of [__init__], a fresh instance is allocated and [__init__]
    runs on it. A failed binding leaves no reachable instance behind, so the
    store is left as it was. *)
Definition construct (cls : class) (kw : gmap string value) : M loc :=
  let* _ := lift (no_unexpected (dict_keys (init_parameters cls)) kw) in
  let* l_max := lift (argument kw "l_max" (default_of cls "l_max")) in
  let* normalize := lift (argument kw "normalize" (default_of cls "normalize")) in
  let* mode := lift (argument kw "mode" (default_of cls "mode")) in
  let* priors := lift (argument kw "priors" (default_of cls "priors")) in
  let* prefix := lift (argument kw "prefix" (default_of cls "prefix")) in
  match cls with
  | WeibullAdstock =>
      let* kind := lift (argument kw "kind" (default_of cls "kind")) in
      let* self := new cls in
      let* _ := WeibullAdstock___init__ self l_max normalize kind mode priors prefix in
      ret self
  | _ =>
      let* self := new cls in
      let* _ := AdstockTransformation___init__ self l_max normalize mode priors prefix in
      ret self
  end.

(** ** The registry helper *)

(** Objects that are neither a string nor an [AdstockTransformation]. The
    annotation [str | AdstockTransformation] is not enforced and the body
    tests no type, so such an argument reaches the membership test too. *)
Inductive other_arg :=
  | ANone
  | ABool (b : bool)
  | AInt (n : Z)
  | AList (items : list Z)
  | ADict (items : list (string * Z)).

(** Lists and dicts cannot be hashed: [x in d] on a dict raises a
    [TypeError] for them. *)
Definition hashable (a : other_arg) : bool :=
  match a with
  | AList _ | ADict _ => false
  | _ => true
  end.

(** [str] of such an object, as an f-string prints it. *)
Definition str_other (a : other_arg) : string :=
  match a with
  | ANone => "None"
  | ABool true => "True"
  | ABool false => "False"
  | AInt n => pretty n
  | AList items => "[" +:+ String.concat ", " (pretty <$> items) +:+ "]"
  | ADict items =>
      "{" +:+ String.concat ", " ((λ kv, repr_str kv.1 +:+ ": " +:+ pretty kv.2) <$> items)
        +:+ "}"
  end.

(** The argument [function]: a string, an instance, or any other object. *)
Inductive function_arg :=
  | Name (name : string)
  | Instance (self : loc)
  | Other (a : other_arg).

Definition unknown_message (name : string) : string :=
  "Unknown adstock function: " +:+ name +:+ ". Choose from "
    +:+ str_list (dict_keys ADSTOCK_TRANSFORMATIONS).

Definition deprecation_message : string :=
  "The preferred method of initializing a lagging function is to use the class directly.".

Definition _get_adstock_function (function : function_arg) (kw : gmap string value)
  : M loc :=
  match function with
  | Instance self => ret self
  | Name name =>
      if negb (dict_contains ADSTOCK_TRANSFORMATIONS name)
      then raise (ValueError (unknown_message name))
      else
        let* _ := if bool_decide (kw ≠ ∅)
                  then warn deprecation_message DeprecationWarning
                  else ret tt in
        match dict_get ADSTOCK_TRANSFORMATIONS name with
        | Some cls => construct cls kw
        | None => raise KeyError
        end
  | Other a =>
      (* no string is equal to such an object, so it is no key *)
      if hashable a
      then raise (ValueError (unknown_message (str_other a)))
      else raise TypeError
  end.

(** ** numpy, as far as [sample_curve] uses it *)

(** [l_max] is annotated [int], and the properties below speak of integer
    values only. For the other values the array library decides: a bool
    counts as a number in [arange] but is refused as a shape by [zeros], and
    [None] is taken as no bound by [arange] and as the empty shape by
    [zeros]. *)

(** [np.arange(0, stop)]: the integers from 0 below [stop], none if
    [stop <= 0]. *)
Definition np_arange (stop : value) : result (list Z) :=
  match stop with
  | VInt n => Ok (seqZ 0 n)
  | VBool b => Ok (seqZ 0 (Z.b2z b))
  | VNone => Ok []
  | _ => Raise TypeError
  end.

(** [np.zeros(n)]: a float vector of [n] zeros; a negative [n] is refused.
    The array of the empty shape has no first entry to index; it is kept as
    the vector without entries. *)
Definition np_zeros (n : value) : result (list float) :=
  match n with
  | VInt n =>
      if n <? 0 then Raise (ValueError "negative dimensions are not allowed")
      else Ok (replicate (Z.to_nat n) 0%float)
  | VNone => Ok []
  | _ => Raise TypeError
  end.

(** [x[i] = v] on a vector: an index past the end is an [IndexError]. *)
Definition np_setitem (x : list float) (i : nat) (v : float) : result (list float) :=
  if bool_decide (i < length x)%nat then Ok (<[i := v]> x) else Raise IndexError.

(** ** The methods that call out of the module *)

Section Methods.

(** The routines of pymc_marketing.mmm.transformers, which are not among
    the sources: each is taken as given, with the arguments in the order
    the call sites of this module write them. *)
Context {tensor : Type}.
Variable geometric_adstock :
  tensor → tensor → value → value → value → result tensor.
Variable delayed_adstock :
  tensor → tensor → tensor → value → value → value → result tensor.
Variable weibull_adstock :
  tensor → tensor → tensor → value → value → value → result tensor.

(** The helper [_sample_curve] of the base class, which is not among the
    sources either: taken as given, reading the instance it is called on. *)
Context {Dataset DataArray : Type}.
Variable _sample_curve :
  object → string → Dataset → list float → list (string * list Z) → result DataArray.

(** [geometric_adstock(x, alpha=alpha, l_max=self.l_max,
    normalize=self.normalize, mode=self.mode)] *)
Definition GeometricAdstock_function (self : loc) (x alpha : tensor) : M tensor :=
  let* l_max := getattr self "l_max" in
  let* normalize := getattr self "normalize" in
  let* mode := getattr self "mode" in
  lift (geometric_adstock x alpha l_max normalize mode).

(** [delayed_adstock(x, alpha=alpha, theta=theta, l_max=self.l_max,
    normalize=self.normalize, mode=self.mode)] *)
Definition DelayedAdstock_function (self : loc) (x alpha theta : tensor) : M tensor :=
  let* l_max := getattr self "l_max" in
  let* normalize := getattr self "normalize" in
  let* mode := getattr self "mode" in
  lift (delayed_adstock x alpha theta l_max normalize mode).

(** [weibull_adstock(x=x, lam=lam, k=k, l_max=self.l_max, mode=self.mode,
    type=self.kind)] *)
Definition WeibullAdstock_function (self : loc) (x lam k : tensor) : M tensor :=
  let* l_max := getattr self "l_max" in
  let* mode := getattr self "mode" in
  let* kind := getattr self "kind" in
  lift (weibull_adstock x lam k l_max mode kind).

(** [amount] is optional and defaults to 1.0. *)
Definition sample_curve (self : loc) (parameters : Dataset) (amount : option float)
  : M DataArray :=
  let amount := default 1%float amount in
  let* l_max := getattr self "l_max" in
  let* time_since := lift (np_arange l_max) in
  let coords := [("time since exposure", time_since)] in
  let* l_max := getattr self "l_max" in
  let* x := lift (np_zeros l_max) in
  let* x := lift (np_setitem x 0 amount) in
  let* obj := deref self in
  lift (_sample_curve obj "adstock" parameters x coords).

End Methods.

(** The store before anything has been constructed. *)
Definition initial : state := State [] [].

(** The keyword arguments accepted by the constructor of [cls]: every keyword
    names a parameter of its [__init__], and the required [l_max] is given. *)
Definition accepted (cls : class) (kw : gmap string value) : Prop :=
  dom kw ⊆ list_to_set (dict_keys (init_parameters cls)) ∧ is_Some (kw !! "l_max").

Global Instance accepted_dec cls kw : Decision (accepted cls kw).
Proof. unfold accepted. apply _. Defined.

(** The attributes of [__init__] that this module assigns itself. *)
Definition descriptor_fields (cls : class) : list string :=
  match cls with
  | WeibullAdstock => ["kind"; "l_max"; "normalize"; "mode"]
  | _ => ["l_max"; "normalize"; "mode"]
  end.

(** The value a constructor parameter is bound to under the keywords [kw]. *)
Definition bound (cls : class) (kw : gmap string value) (name : string) : option value :=
  match kw !! name with
  | Some v => Some v
  | None => default_of cls name
  end.

(** The [__dict__] that construction under the keywords [kw] leaves in the
    new instance, written in the order of the assignments. *)
Definition instance_attrs (cls : class) (kw : gmap string value) : gmap string value :=
  let arg name := default VNone (bound cls kw name) in
  let first : gmap string value :=
    match cls with
    | WeibullAdstock => <["kind" := arg "kind"]> ∅
    | _ => ∅
    end in
  <["prefix" := arg "prefix"]>
    (<["priors" := arg "priors"]>
      (<["mode" := arg "mode"]>
        (<["normalize" := arg "normalize"]>
          (<["l_max" := arg "l_max"]> first)))).

(** The store after the deprecation warning has been emitted. *)
Definition warned (σ : state) : state :=
  State (heap σ) (warnings σ ++ [Warning deprecation_message DeprecationWarning]).

(** An operation that leaves the store as it found it, whatever it returns. *)
Definition read_only {A} (m : M A) : Prop := ∀ σ, (m σ).2 = σ.

(** ** Inputs of the worked instances *)

(** [l_max=..., normalize=..., mode=...] *)
Definition config_kw (l_max normalize mode : value) : gmap string value :=
  <["mode" := mode]> (<["normalize" := normalize]> (<["l_max" := l_max]> ∅)).

(** [l_max=10, kind=WeibullType.CDF] *)
Definition weibull_kw : gmap string value :=
  <["kind" := VKind CDF]> (<["l_max" := VInt 10]> ∅).

(** The instances [GeometricAdstock(l_max=3)] and [GeometricAdstock(l_max=0)]. *)
Definition geometric_3 : object :=
  Object GeometricAdstock (instance_attrs GeometricAdstock (<["l_max" := VInt 3]> ∅)).

Definition geometric_0 : object :=
  Object GeometricAdstock (instance_attrs GeometricAdstock (<["l_max" := VInt 0]> ∅)).

(** A stand-in for the base helper that answers with the series and the
    coordinates it was handed. *)
Definition echo_sample_curve (obj : object) (var_name : string) (parameters : unit)
    (x : list float) (coords : list (string * list Z))
  : result (list float * list (string * list Z)) :=
  Ok (x, coords).

(** ** Calling [function] with keyword parameters *)

Section Dispatch.

Context {tensor : Type}.
Variable geometric_adstock :
  tensor → tensor → value → value → value → result tensor.
Variable delayed_adstock :
  tensor → tensor → tensor → value → value → value → result tensor.
Variable weibull_adstock :
  tensor → tensor → tensor → value → value → value → result tensor.

(** A parameter of [function] has no default: a keyword call that leaves it
    out is a [TypeError]. *)
Definition function_argument (params : gmap string tensor) (name : string)
  : result tensor :=
  match params !! name with
  | Some v => Ok v
  | None => Raise TypeError
  end.

(** The call [self.function(x, **params)]: the method is the one of the class
    of [self]; a keyword that is none of its parameters after [self] and [x]
    is a [TypeError], and so is a parameter left out. *)
Definition function (self : loc) (x : tensor) (params : gmap string tensor)
  : M tensor :=
  let* obj := deref self in
  let* _ := lift (if bool_decide
                       (dom params ⊆ list_to_set (drop 2 (function_parameters (class_of obj))))
                  then Ok tt else Raise TypeError) in
  match class_of obj with
  | GeometricAdstock =>
      let* alpha := lift (function_argument params "alpha") in
      GeometricAdstock_function geometric_adstock self x alpha
  | DelayedAdstock =>
      let* alpha := lift (function_argument params "alpha") in
      let* theta := lift (function_argument params "theta") in
      DelayedAdstock_function delayed_adstock self x alpha theta
  | WeibullAdstock =>
      let* lam := lift (function_argument params "lam") in
      let* k := lift (function_argument params "k") in
      WeibullAdstock_function weibull_adstock self x lam k
  end.

End Dispatch.

(** The instance [GeometricAdstock(l_max=-2)]. *)
Definition geometric_neg : object :=
  Object GeometricAdstock (instance_attrs GeometricAdstock (<["l_max" := VInt (-2)]> ∅)).

(** Stand-ins for the transformer routines in the worked instances. *)
Definition sum_adstock2 (x a : Z) (l_max normalize mode : value) : result Z :=
  Ok (x + a).

Definition sum_adstock3 (x a b : Z) (l_max normalize mode : value) : result Z :=
  Ok (x + a + b).

(** * Properties *)

(** ** The registry and the class tables *)

Lemma dict_get_Some_contains {V} (d : list (string * V)) k v :
  dict_get d k = Some v → dict_contains d k = true.
Proof.
  unfold dict_contains, dict_keys. intros H. apply bool_decide_eq_true.
  induction d as [|[k' v'] d IH]; simpl in *; [done|].
  destruct (decide (k' = k)) as [->|]; [left | right; auto].
Qed.

Lemma dict_contains_get {V} (d : list (string * V)) k :
  dict_contains d k = true → is_Some (dict_get d k).
Proof.
  unfold dict_contains, dict_keys. intros H%bool_decide_eq_true.
  induction d as [|[k' v'] d IH]; simpl in *.
  - by apply elem_of_nil in H.
  - destruct (decide (k' = k)) as [->|Hne]; [by eexists|].
    apply elem_of_cons in H as [->|H]; [done | auto].
Qed.

Lemma registry_unfold :
  ADSTOCK_TRANSFORMATIONS =
    [("geometric", GeometricAdstock); ("delayed", DelayedAdstock);
     ("weibull", WeibullAdstock)].
Proof. reflexivity. Qed.

Lemma registry_get name cls :
  dict_get ADSTOCK_TRANSFORMATIONS name = Some cls ↔ name = lookup_name cls.
Proof.
  rewrite registry_unfold. simpl. split.
  - repeat case_decide; intros; simplify_eq; done.
  - intros ->. by destruct cls.
Qed.

(** C5: the registry has exactly the three entries geometric, delayed and
    weibull, in that order, bound to GeometricAdstock, DelayedAdstock and
    WeibullAdstock, and each registered class sits under its own
    [lookup_name]. *)
Theorem registry_three_entries_keyed_by_lookup_name :
  ADSTOCK_TRANSFORMATIONS =
    [("geometric", GeometricAdstock); ("delayed", DelayedAdstock);
     ("weibull", WeibullAdstock)]
  ∧ length ADSTOCK_TRANSFORMATIONS = 3%nat
  ∧ NoDup (dict_keys ADSTOCK_TRANSFORMATIONS)
  ∧ (∀ name cls, (name, cls) ∈ ADSTOCK_TRANSFORMATIONS → name = lookup_name cls)
  ∧ (∀ cls, dict_get ADSTOCK_TRANSFORMATIONS (lookup_name cls) = Some cls).
Proof.
  split; [apply registry_unfold|]. split; [reflexivity|]. split; [|split].
  - by apply (bool_decide_unpack _).
  - intros name cls. rewrite registry_unfold. rewrite !elem_of_cons, elem_of_nil.
    intros Hin. destruct Hin as [Hin|[Hin|[Hin|[]]]]; by inversion Hin.
  - intros cls. by apply registry_get.
Qed.

(** C6: the default prior table: GeometricAdstock has alpha ~ Beta(alpha=1,
    beta=3); DelayedAdstock has alpha ~ Beta(alpha=1, beta=3) and theta ~
    HalfNormal(sigma=1); WeibullAdstock has lam and k ~ HalfNormal(sigma=1).
    Each entry is a family name with its numeric hyperparameters. *)
Theorem default_prior_table :
  default_priors GeometricAdstock =
    [("alpha", {| dist := "Beta"; kwargs := [("alpha", 1); ("beta", 3)] |})]
  ∧ default_priors DelayedAdstock =
    [("alpha", {| dist := "Beta"; kwargs := [("alpha", 1); ("beta", 3)] |});
     ("theta", {| dist := "HalfNormal"; kwargs := [("sigma", 1)] |})]
  ∧ default_priors WeibullAdstock =
    [("lam", {| dist := "HalfNormal"; kwargs := [("sigma", 1)] |});
     ("k", {| dist := "HalfNormal"; kwargs := [("sigma", 1)] |})]
  ∧ (∀ cls name p, dict_get (default_priors cls) name = Some p →
       (dist p = "Beta" ∧ dict_keys (kwargs p) = ["alpha"; "beta"])
       ∨ (dist p = "HalfNormal" ∧ dict_keys (kwargs p) = ["sigma"])).
Proof.
  repeat split; try reflexivity.
  intros cls name p. destruct cls; simpl; repeat case_decide; intros;
    simplify_eq; simpl; auto.
Qed.

(** C3: for each concrete class, the parameter names of [function] other than
    [self] and the series [x] are, as a set, the keys of [default_priors]. *)
Theorem function_parameters_match_default_priors (cls : class) :
  list_to_set (drop 2 (function_parameters cls)) =@{gset string}
  list_to_set (dict_keys (default_priors cls))
  ∧ take 2 (function_parameters cls) = ["self"; "x"].
Proof. by destruct cls. Qed.

(** ** Construction *)

Lemma setattr_last h c a w name v :
  setattr (length h) name v (State (h ++ [Object c a]) w)
  = (Ok tt, State (h ++ [Object c (<[name := v]> a)]) w).
Proof.
  unfold setattr. simpl.
  rewrite lookup_app_r, Nat.sub_diag by lia. simpl.
  rewrite insert_app_r_alt, Nat.sub_diag by lia. done.
Qed.

Lemma argument_default kw name d :
  argument kw name (Some d) = Ok (default d (kw !! name)).
Proof. unfold argument. by destruct (kw !! name). Qed.

Lemma default_of_table cls :
  default_of cls "l_max" = None
  ∧ default_of cls "normalize" = Some (VBool true)
  ∧ default_of cls "mode" = Some (VMode After)
  ∧ default_of cls "priors" = Some VNone
  ∧ default_of cls "prefix" = Some VNone
  ∧ default_of WeibullAdstock "kind" = Some (VKind PDF).
Proof. by destruct cls. Qed.

Lemma bound_default cls kw name d :
  default_of cls name = Some d →
  default VNone (bound cls kw name) = default d (kw !! name).
Proof. unfold bound. intros ->. by destruct (kw !! name). Qed.

Lemma construct_accepted cls kw σ :
  accepted cls kw →
  construct cls kw σ =
    (Ok (length (heap σ)),
     State (heap σ ++ [Object cls (instance_attrs cls kw)]) (warnings σ)).
Proof.
  intros [Hsub [v Hv]].
  destruct (default_of_table cls) as (Hl & Hn & Hm & Hp & Hx & Hk).
  unfold construct, no_unexpected, instance_attrs.
  rewrite bool_decide_eq_true_2 by done.
  rewrite Hl, Hn, Hm, Hp, Hx, !argument_default.
  rewrite !(bound_default cls kw _ _ Hn), !(bound_default cls kw _ _ Hm),
    !(bound_default cls kw _ _ Hp), !(bound_default cls kw _ _ Hx).
  assert (Hb : default VNone (bound cls kw "l_max") = v)
    by (unfold bound; by rewrite Hv).
  rewrite Hb. unfold argument at 1. rewrite Hv.
  destruct σ as [h w].
  destruct cls; simpl.
  all: try (rewrite Hk, argument_default, (bound_default _ kw _ _ Hk)).
  all: unfold bind, lift, new, WeibullAdstock___init__,
         AdstockTransformation___init__, Transformation___init__, bind, ret;
       simpl; by rewrite !setattr_last.
Qed.

Lemma construct_rejected cls kw σ :
  ¬ accepted cls kw → construct cls kw σ = (Raise TypeError, σ).
Proof.
  intros Hno. unfold construct, no_unexpected.
  case_bool_decide as Hsub; [|done].
  destruct (kw !! "l_max") as [v|] eqn:Hv.
  { destruct Hno. split; [done | by eexists]. }
  destruct (default_of_table cls) as (Hl & _).
  rewrite Hl. unfold argument at 1. by rewrite Hv.
Qed.

Lemma construct_cases cls kw σ :
  (accepted cls kw ∧
   construct cls kw σ =
     (Ok (length (heap σ)),
      State (heap σ ++ [Object cls (instance_attrs cls kw)]) (warnings σ)))
  ∨ (¬ accepted cls kw ∧ construct cls kw σ = (Raise TypeError, σ)).
Proof.
  destruct (decide (accepted cls kw)) as [H|H]; [left | right]; split; try done.
  - by apply construct_accepted.
  - by apply construct_rejected.
Qed.

Lemma instance_attrs_descriptor cls kw name :
  accepted cls kw → name ∈ descriptor_fields cls →
  instance_attrs cls kw !! name = bound cls kw name.
Proof.
  intros [_ [v Hv]] Hin.
  destruct (default_of_table cls) as (Hl & Hn & Hm & Hp & Hx & Hk).
  assert (Hcases : name = "l_max" ∨ name = "normalize" ∨ name = "mode"
                    ∨ (cls = WeibullAdstock ∧ name = "kind")).
  { destruct cls; simpl in Hin;
      repeat (apply elem_of_cons in Hin as [->|Hin]; [by auto 6|]);
      by apply elem_of_nil in Hin. }
  unfold instance_attrs.
  destruct Hcases as [->|[->|[->|[-> ->]]]].
  - rewrite !lookup_insert_ne, lookup_insert_eq by done.
    unfold bound. by rewrite Hv.
  - rewrite !lookup_insert_ne, lookup_insert_eq by done.
    unfold bound. rewrite Hn. by destruct (kw !! "normalize").
  - rewrite !lookup_insert_ne, lookup_insert_eq by done.
    unfold bound. rewrite Hm. by destruct (kw !! "mode").
  - rewrite !lookup_insert_ne, lookup_insert_eq by done.
    unfold bound. rewrite Hk. by destruct (kw !! "kind").
Qed.

(** ** The helper [_get_adstock_function] *)

Lemma get_unknown name kw σ :
  name ∉ dict_keys ADSTOCK_TRANSFORMATIONS →
  _get_adstock_function (Name name) kw σ
  = (Raise (ValueError (unknown_message name)), σ).
Proof.
  intros Hno. unfold _get_adstock_function, dict_contains.
  by rewrite bool_decide_eq_false_2.
Qed.

Lemma get_registered name cls kw σ :
  dict_get ADSTOCK_TRANSFORMATIONS name = Some cls →
  _get_adstock_function (Name name) kw σ
  = construct cls kw (if bool_decide (kw ≠ ∅) then warned σ else σ).
Proof.
  intros Hget. unfold _get_adstock_function.
  rewrite (dict_get_Some_contains _ _ _ Hget), Hget. simpl.
  unfold bind. by case_bool_decide.
Qed.

Lemma registered_or_unknown name :
  (∃ cls, dict_get ADSTOCK_TRANSFORMATIONS name = Some cls
          ∧ name ∈ dict_keys ADSTOCK_TRANSFORMATIONS)
  ∨ name ∉ dict_keys ADSTOCK_TRANSFORMATIONS.
Proof.
  destruct (decide (name ∈ dict_keys ADSTOCK_TRANSFORMATIONS)) as [Hin|Hno];
    [left | by right].
  destruct (dict_contains_get ADSTOCK_TRANSFORMATIONS name) as [cls Hcls].
  - by apply bool_decide_eq_true.
  - by exists cls.
Qed.

Lemma unknown_message_unfold name :
  unknown_message name =
    "Unknown adstock function: " +:+ name
      +:+ ". Choose from ['geometric', 'delayed', 'weibull']".
Proof. reflexivity. Qed.

Lemma get_other a kw σ :
  _get_adstock_function (Other a) kw σ
  = (if hashable a then Raise (ValueError (unknown_message (str_other a)))
     else Raise TypeError, σ).
Proof. simpl. by destruct (hashable a). Qed.

(** C1, as the code has it: the [ValueError] that names the choices
    geometric, delayed and weibull is raised exactly when the argument is no
    instance and is a hashable object that is no key of the registry, be it a
    string or not; the store is then left as it was, so nothing has been
    constructed and nothing warned. It is the one check of the helper: an
    instance is returned as it is, an unhashable argument fails in the
    membership test with a [TypeError], and for a registered name the outcome
    is that of calling the registered class, so a [ValueError] can then only
    be one that the class call raised. *)
Theorem ValueError_iff_not_a_key (function : function_arg)
    (kw : gmap string value) (σ : state) :
  (∀ name, function = Name name →
     name ∉ dict_keys ADSTOCK_TRANSFORMATIONS →
     _get_adstock_function function kw σ
     = (Raise (ValueError ("Unknown adstock function: " +:+ name
                 +:+ ". Choose from ['geometric', 'delayed', 'weibull']")), σ))
  ∧ (∀ a, function = Other a → hashable a = true →
     _get_adstock_function function kw σ
     = (Raise (ValueError ("Unknown adstock function: " +:+ str_other a
                 +:+ ". Choose from ['geometric', 'delayed', 'weibull']")), σ))
  ∧ (∀ self, function = Instance self →
     _get_adstock_function function kw σ = (Ok self, σ))
  ∧ (∀ a, function = Other a → hashable a = false →
     _get_adstock_function function kw σ = (Raise TypeError, σ))
  ∧ (∀ name cls, function = Name name →
     dict_get ADSTOCK_TRANSFORMATIONS name = Some cls →
     _get_adstock_function function kw σ
     = construct cls kw (if bool_decide (kw ≠ ∅) then warned σ else σ))
  ∧ (∀ msg, (_get_adstock_function function kw σ).1 = Raise (ValueError msg) ↔
       (∃ name, function = Name name
          ∧ (name ∉ dict_keys ADSTOCK_TRANSFORMATIONS)
          ∧ msg = "Unknown adstock function: " +:+ name
                    +:+ ". Choose from ['geometric', 'delayed', 'weibull']")
       ∨ (∃ a, function = Other a ∧ hashable a = true
          ∧ msg = "Unknown adstock function: " +:+ str_other a
                    +:+ ". Choose from ['geometric', 'delayed', 'weibull']")
       ∨ (∃ name cls, function = Name name
          ∧ dict_get ADSTOCK_TRANSFORMATIONS name = Some cls
          ∧ (construct cls kw (if bool_decide (kw ≠ ∅) then warned σ else σ)).1
            = Raise (ValueError msg))).
Proof.
  split; [|split; [|split; [|split; [|split]]]].
  - intros name -> Hno. by rewrite (get_unknown _ _ _ Hno).
  - intros a -> Ha. by rewrite get_other, Ha.
  - by intros self ->.
  - intros a -> Ha. by rewrite get_other, Ha.
  - intros name cls -> Hget. by apply get_registered.
  - intros msg. destruct function as [name|self|a].
    + destruct (registered_or_unknown name) as [(cls & Hget & Hin)|Hno].
      * rewrite (get_registered _ _ _ _ Hget). split.
        -- intros Hmsg. right. right. by exists name, cls.
        -- intros [(n & [= <-] & Hn & _)|[(a & Ha & _)|(n & c & [= <-] & Hc & Hr)]].
           ++ done.
           ++ discriminate Ha.
           ++ rewrite Hget in Hc. by injection Hc as <-.
      * rewrite (get_unknown _ _ _ Hno). cbn [fst]. rewrite unknown_message_unfold.
        split.
        -- intros [= <-]. left. by exists name.
        -- intros [(n & [= <-] & _ & ->)|[(a & Ha & _)|(n & c & [= <-] & Hc & _)]].
           ++ done.
           ++ discriminate Ha.
           ++ apply dict_get_Some_contains in Hc.
              apply bool_decide_eq_true in Hc. done.
    + simpl. split; [done|].
      intros [(n & Hn & _)|[(a & Ha & _)|(n & c & Hn & _)]]; discriminate.
    + rewrite get_other. split.
      * destruct (hashable a) eqn:Ha; simpl; [|done].
        intros [= <-]. right. left. by exists a.
      * intros [(n & Hn & _)|[(b & [= <-] & Hb & ->)|(n & c & Hn & _)]];
          [discriminate | | discriminate].
        by rewrite Hb.
Qed.

(** C1, the claim as written fails: the argument need not be a string. The
    integer 123 is no instance and no key, and it gets the same
    [ValueError]. *)
Lemma non_string_argument_gets_ValueError :
  _get_adstock_function (Other (AInt 123)) ∅ initial
  = (Raise (ValueError
       "Unknown adstock function: 123. Choose from ['geometric', 'delayed', 'weibull']"),
     initial).
Proof. reflexivity. Qed.

Lemma registered_name_constructs_instance_aux name cls kw σ :
  dict_get ADSTOCK_TRANSFORMATIONS name = Some cls →
  accepted cls kw →
  ∃ obj, (_get_adstock_function (Name name) kw σ).1 = Ok (length (heap σ))
    ∧ heap (_get_adstock_function (Name name) kw σ).2 = heap σ ++ [obj]
    ∧ obj = Object cls (instance_attrs cls kw).
Proof.
  intros Hget Hacc.
  rewrite (get_registered _ _ _ _ Hget), (construct_accepted _ _ _ Hacc).
  exists (Object cls (instance_attrs cls kw)). simpl.
  repeat split; by case_bool_decide.
Qed.

(** C4, as the code has it: for a registered name and keyword arguments that
    the registered class's constructor accepts, the helper returns a fresh
    instance of that class whose descriptor fields hold the given arguments
    (the defaults for those not given); it is the result of calling the class
    with exactly these keywords, after the deprecation warning if there are
    any. *)
Theorem registered_name_constructs_instance (name : string) (cls : class)
    (kw : gmap string value) (σ : state) :
  dict_get ADSTOCK_TRANSFORMATIONS name = Some cls →
  accepted cls kw →
  _get_adstock_function (Name name) kw σ
    = construct cls kw (if bool_decide (kw ≠ ∅) then warned σ else σ)
  ∧ ∃ obj,
      (_get_adstock_function (Name name) kw σ).1 = Ok (length (heap σ))
      ∧ heap (_get_adstock_function (Name name) kw σ).2 = heap σ ++ [obj]
      ∧ class_of obj = cls
      ∧ lookup_name (class_of obj) = name
      ∧ (∀ p, p ∈ descriptor_fields cls → attrs obj !! p = bound cls kw p)
      ∧ (∀ p v, p ∈ descriptor_fields cls → kw !! p = Some v →
           attrs obj !! p = Some v).
Proof.
  intros Hget Hacc. split; [by apply get_registered|].
  destruct (registered_name_constructs_instance_aux name cls kw σ Hget Hacc)
    as (obj & Hres & Hheap & ->).
  exists (Object cls (instance_attrs cls kw)). simpl.
  assert (Hfields : ∀ p, p ∈ descriptor_fields cls →
            instance_attrs cls kw !! p = bound cls kw p)
    by (intros; by apply instance_attrs_descriptor).
  repeat split; try done.
  - symmetry. by apply registry_get.
  - intros p v Hp Hv. rewrite Hfields by done. unfold bound. by rewrite Hv.
Qed.

(** C4 at the name weibull with [l_max=10, kind=WeibullType.CDF], from the
    empty store. *)
Lemma registered_name_constructs_instance_witness :
  _get_adstock_function (Name "weibull") weibull_kw initial
    = construct WeibullAdstock weibull_kw
        (if bool_decide (weibull_kw ≠ ∅) then warned initial else initial)
  ∧ ∃ obj,
      (_get_adstock_function (Name "weibull") weibull_kw initial).1
        = Ok (length (heap initial))
      ∧ heap (_get_adstock_function (Name "weibull") weibull_kw initial).2
        = heap initial ++ [obj]
      ∧ class_of obj = WeibullAdstock
      ∧ lookup_name (class_of obj) = "weibull"
      ∧ (∀ p, p ∈ descriptor_fields WeibullAdstock →
           attrs obj !! p = bound WeibullAdstock weibull_kw p)
      ∧ (∀ p v, p ∈ descriptor_fields WeibullAdstock → weibull_kw !! p = Some v →
           attrs obj !! p = Some v).
Proof.
  apply (registered_name_constructs_instance "weibull" WeibullAdstock weibull_kw initial).
  - reflexivity.
  - split.
    + apply (bool_decide_unpack _). vm_compute. exact I.
    + exists (VInt 10). reflexivity.
Defined.

(** C4, the claim as written fails: the registered name delayed without
    keyword arguments returns no instance, the constructor raises a
    [TypeError] for the missing [l_max]. *)
Lemma registered_name_without_arguments_returns_no_instance :
  dict_get ADSTOCK_TRANSFORMATIONS "delayed" = Some DelayedAdstock
  ∧ _get_adstock_function (Name "delayed") ∅ initial = (Raise TypeError, initial).
Proof. split; reflexivity. Qed.

(** C8: given an instance, the helper returns that very instance (the same
    location), the store is unchanged, and the keyword arguments play no part:
    no exception and no warning. *)
Theorem instance_is_returned_as_is (self : loc) (kw : gmap string value) (σ : state) :
  _get_adstock_function (Instance self) kw σ = (Ok self, σ)
  ∧ (∀ e, (_get_adstock_function (Instance self) kw σ).1 ≠ Raise e)
  ∧ heap (_get_adstock_function (Instance self) kw σ).2 !! self = heap σ !! self
  ∧ warnings (_get_adstock_function (Instance self) kw σ).2 = warnings σ
  ∧ _get_adstock_function (Instance self) kw σ
    = _get_adstock_function (Instance self) ∅ σ.
Proof.
  assert (Hrun : _get_adstock_function (Instance self) kw σ = (Ok self, σ))
    by reflexivity.
  rewrite Hrun. simpl. repeat split; done.
Qed.

Lemma snoc_ne {A} (l : list A) (x : A) : l ++ [x] ≠ l.
Proof.
  intros Heq. apply (f_equal length) in Heq.
  rewrite length_app in Heq. simpl in Heq. lia.
Qed.

Lemma get_warnings function kw σ :
  warnings (_get_adstock_function function kw σ).2 =
    match function with
    | Name name =>
        if bool_decide (name ∈ dict_keys ADSTOCK_TRANSFORMATIONS ∧ kw ≠ ∅)
        then warnings σ ++ [Warning deprecation_message DeprecationWarning]
        else warnings σ
    | _ => warnings σ
    end.
Proof.
  destruct function as [name|self|a]; [|done|by rewrite get_other].
  destruct (registered_or_unknown name) as [(cls & Hget & Hin)|Hno].
  - rewrite (get_registered _ _ _ _ Hget).
    destruct (construct_cases cls kw (if bool_decide (kw ≠ ∅) then warned σ else σ))
      as [[_ ->]|[_ ->]]; simpl;
      repeat case_bool_decide; simpl; first [done | tauto].
  - rewrite (get_unknown _ _ _ Hno). simpl.
    rewrite bool_decide_eq_false_2; [done | tauto].
Qed.

(** C10, as the code has it: the helper emits the [DeprecationWarning], once,
    exactly when it is called with a registered name and at least one keyword
    argument; the call then returns the constructed instance provided the
    registered class's constructor accepts the keyword arguments. *)
Theorem DeprecationWarning_iff_registered_name_with_keywords
    (function : function_arg) (kw : gmap string value) (σ : state) :
  (warnings (_get_adstock_function function kw σ).2
     = warnings σ ++ [Warning deprecation_message DeprecationWarning]
   ↔ ∃ name, function = Name name
       ∧ (name ∈ dict_keys ADSTOCK_TRANSFORMATIONS) ∧ kw ≠ ∅)
  ∧ (warnings (_get_adstock_function function kw σ).2
       = warnings σ ++ [Warning deprecation_message DeprecationWarning]
     ∨ warnings (_get_adstock_function function kw σ).2 = warnings σ)
  ∧ (∀ name cls, function = Name name →
       dict_get ADSTOCK_TRANSFORMATIONS name = Some cls →
       accepted cls kw →
       ∃ obj, (_get_adstock_function function kw σ).1 = Ok (length (heap σ))
         ∧ heap (_get_adstock_function function kw σ).2 = heap σ ++ [obj]
         ∧ class_of obj = cls).
Proof.
  split; [|split].
  - rewrite get_warnings. destruct function as [name|self|a].
    + case_bool_decide as Hc; split.
      * intros _. by exists name.
      * done.
      * intros Heq. symmetry in Heq. by apply snoc_ne in Heq.
      * intros (n & [= <-] & ? & ?). by destruct Hc.
    + split; [intros Heq; symmetry in Heq; by apply snoc_ne in Heq|].
      by intros (? & ? & _).
    + split; [intros Heq; symmetry in Heq; by apply snoc_ne in Heq|].
      by intros (? & ? & _).
  - rewrite get_warnings. destruct function; [case_bool_decide| |]; auto.
  - intros name cls -> Hget Hacc.
    destruct (registered_name_constructs_instance_aux name cls kw σ Hget Hacc)
      as (obj & Hres & Hheap & ->).
    eexists. split; [apply Hres|]. split; [apply Hheap | reflexivity].
Qed.

(** C10, the claim as written fails: called with the registered name
    geometric and the single keyword normalize, the helper emits the warning
    and then returns no instance; the constructor raises a [TypeError] for the
    missing [l_max]. *)
Lemma warned_call_returns_no_instance :
  _get_adstock_function (Name "geometric") (<["normalize" := VBool false]> ∅) initial
  = (Raise TypeError,
     {| heap := [];
        warnings := [{| message := deprecation_message;
                        category := DeprecationWarning |}] |}).
Proof. reflexivity. Qed.

(** ** Operations that only read the store *)

Lemma read_only_ret {A} (a : A) : read_only (ret a).
Proof. done. Qed.

Lemma read_only_lift {A} (r : result A) : read_only (lift r).
Proof. done. Qed.

Lemma read_only_getattr self name : read_only (getattr self name).
Proof. intros σ. unfold getattr. by repeat case_match. Qed.

Lemma read_only_deref self : read_only (deref self).
Proof. intros σ. unfold deref. by case_match. Qed.

Lemma read_only_bind {A B} (m : M A) (k : A → M B) :
  read_only m → (∀ a, read_only (k a)) → read_only (bind m k).
Proof.
  intros Hm Hk σ. unfold bind. specialize (Hm σ).
  destruct (m σ) as [[a|e] σ']; simpl in *; subst; [apply Hk | done].
Qed.

Create HintDb read_only.
#[export] Hint Resolve read_only_ret read_only_lift read_only_getattr
  read_only_deref : read_only.
#[export] Hint Extern 2 (read_only (bind _ _)) =>
  apply read_only_bind; [|intros ?] : read_only.

Lemma getattr_Some σ self obj name v :
  heap σ !! self = Some obj → attrs obj !! name = Some v →
  getattr self name σ = (Ok v, σ).
Proof. intros Ho Hv. unfold getattr. by rewrite Ho, Hv. Qed.

Lemma bind_Ok {A B} (m : M A) (k : A → M B) σ a :
  m σ = (Ok a, σ) → bind m k σ = k a σ.
Proof. intros Hm. unfold bind. by rewrite Hm. Qed.

(** Objects already in the store are out of reach of a construction. *)
Lemma construct_preserves cls kw σ l o :
  heap σ !! l = Some o → heap (construct cls kw σ).2 !! l = Some o.
Proof.
  intros Hl.
  destruct (construct_cases cls kw σ) as [[_ ->]|[_ ->]]; simpl; [|done].
  by apply lookup_app_l_Some.
Qed.

Lemma get_preserves function kw σ l o :
  heap σ !! l = Some o →
  heap (_get_adstock_function function kw σ).2 !! l = Some o.
Proof.
  intros Hl. destruct function as [name|self|a]; [|done|by rewrite get_other].
  destruct (registered_or_unknown name) as [(cls & Hget & Hin)|Hno].
  - rewrite (get_registered _ _ _ _ Hget).
    apply construct_preserves. by case_bool_decide.
  - by rewrite (get_unknown _ _ _ Hno).
Qed.

(** ** The delegating methods and [sample_curve] *)

Section MethodProperties.

Context {tensor : Type}.
Variable geometric_adstock :
  tensor → tensor → value → value → value → result tensor.
Variable delayed_adstock :
  tensor → tensor → tensor → value → value → value → result tensor.
Variable weibull_adstock :
  tensor → tensor → tensor → value → value → value → result tensor.
Context {Dataset DataArray : Type}.
Variable _sample_curve :
  object → string → Dataset → list float → list (string * list Z) → result DataArray.

Lemma GeometricAdstock_function_read_only self x alpha :
  read_only (GeometricAdstock_function geometric_adstock self x alpha).
Proof. unfold GeometricAdstock_function. auto 10 with read_only. Qed.

Lemma DelayedAdstock_function_read_only self x alpha theta :
  read_only (DelayedAdstock_function delayed_adstock self x alpha theta).
Proof. unfold DelayedAdstock_function. auto 10 with read_only. Qed.

Lemma WeibullAdstock_function_read_only self x lam k :
  read_only (WeibullAdstock_function weibull_adstock self x lam k).
Proof. unfold WeibullAdstock_function. auto 10 with read_only. Qed.

Lemma sample_curve_read_only self parameters amount :
  read_only (sample_curve _sample_curve self parameters amount).
Proof. unfold sample_curve. auto 12 with read_only. Qed.

Lemma GeometricAdstock_function_delegates σ self obj x alpha l_max normalize mode :
  heap σ !! self = Some obj →
  attrs obj !! "l_max" = Some l_max →
  attrs obj !! "normalize" = Some normalize →
  attrs obj !! "mode" = Some mode →
  GeometricAdstock_function geometric_adstock self x alpha σ
  = (geometric_adstock x alpha l_max normalize mode, σ).
Proof.
  intros Ho Hl Hn Hm. unfold GeometricAdstock_function.
  rewrite (bind_Ok _ _ _ _ (getattr_Some _ _ _ _ _ Ho Hl)).
  rewrite (bind_Ok _ _ _ _ (getattr_Some _ _ _ _ _ Ho Hn)).
  by rewrite (bind_Ok _ _ _ _ (getattr_Some _ _ _ _ _ Ho Hm)).
Qed.

Lemma DelayedAdstock_function_delegates σ self obj x alpha theta l_max normalize mode :
  heap σ !! self = Some obj →
  attrs obj !! "l_max" = Some l_max →
  attrs obj !! "normalize" = Some normalize →
  attrs obj !! "mode" = Some mode →
  DelayedAdstock_function delayed_adstock self x alpha theta σ
  = (delayed_adstock x alpha theta l_max normalize mode, σ).
Proof.
  intros Ho Hl Hn Hm. unfold DelayedAdstock_function.
  rewrite (bind_Ok _ _ _ _ (getattr_Some _ _ _ _ _ Ho Hl)).
  rewrite (bind_Ok _ _ _ _ (getattr_Some _ _ _ _ _ Ho Hn)).
  by rewrite (bind_Ok _ _ _ _ (getattr_Some _ _ _ _ _ Ho Hm)).
Qed.

Lemma WeibullAdstock_function_delegates σ self obj x lam k l_max mode kind :
  heap σ !! self = Some obj →
  attrs obj !! "l_max" = Some l_max →
  attrs obj !! "mode" = Some mode →
  attrs obj !! "kind" = Some kind →
  WeibullAdstock_function weibull_adstock self x lam k σ
  = (weibull_adstock x lam k l_max mode kind, σ).
Proof.
  intros Ho Hl Hm Hk. unfold WeibullAdstock_function.
  rewrite (bind_Ok _ _ _ _ (getattr_Some _ _ _ _ _ Ho Hl)).
  rewrite (bind_Ok _ _ _ _ (getattr_Some _ _ _ _ _ Ho Hm)).
  by rewrite (bind_Ok _ _ _ _ (getattr_Some _ _ _ _ _ Ho Hk)).
Qed.

(** C2, where the code departs from the claim: a [WeibullAdstock]
    constructed with [l_max=10] and any [normalize] whatever answers
    [function(x, lam, k)] with [weibull_adstock] applied to the stored
    [l_max], [mode] and [kind] only; the stored normalization flag is not
    handed on, so the result is the same for every value of it. *)
Theorem WeibullAdstock_function_ignores_normalize
    (normalize : value) (x lam k : tensor) (σ : state) :
  (bind (construct WeibullAdstock
           (<["normalize" := normalize]> (<["l_max" := VInt 10]> ∅)))
        (λ self, WeibullAdstock_function weibull_adstock self x lam k) σ).1
  = weibull_adstock x lam k (VInt 10) (VMode After) (VKind PDF).
Proof.
  set (kw := <["normalize" := normalize]> (<["l_max" := VInt 10]> ∅)).
  assert (Hacc : accepted WeibullAdstock kw).
  { split.
    - unfold kw. rewrite !dom_insert_L, dom_empty_L. simpl.
      intros p. rewrite !elem_of_union, !elem_of_singleton. tauto.
    - exists (VInt 10). done. }
  unfold bind at 1. rewrite (construct_accepted _ _ _ Hacc).
  assert (Hf : ∀ p, p ∈ descriptor_fields WeibullAdstock →
            instance_attrs WeibullAdstock kw !! p = bound WeibullAdstock kw p)
    by (intros; by apply instance_attrs_descriptor).
  erewrite WeibullAdstock_function_delegates; [done| | | |].
  - simpl. by rewrite lookup_app_r, Nat.sub_diag by lia.
  - simpl. rewrite Hf by (by apply (bool_decide_unpack _)). done.
  - simpl. rewrite Hf by (by apply (bool_decide_unpack _)). done.
  - simpl. rewrite Hf by (by apply (bool_decide_unpack _)). done.
Qed.

(** C7: construction stores the given arguments (the defaults for those
    not given) in the descriptor fields [l_max], [normalize], [mode], and
    [kind] for [WeibullAdstock]; afterwards [function] of each class and
    [sample_curve] leave the whole store as it is, and
    [_get_adstock_function] leaves every object that is already in the
    store as it is. *)
Theorem descriptor_fields_stored_and_kept :
  (∀ cls kw σ, accepted cls kw →
     ∃ obj,
       construct cls kw σ
         = (Ok (length (heap σ)), State (heap σ ++ [obj]) (warnings σ))
       ∧ class_of obj = cls
       ∧ (∀ p, p ∈ descriptor_fields cls → attrs obj !! p = bound cls kw p)
       ∧ (∀ p v, p ∈ descriptor_fields cls → kw !! p = Some v →
            attrs obj !! p = Some v))
  ∧ (∀ self x alpha σ,
       (GeometricAdstock_function geometric_adstock self x alpha σ).2 = σ)
  ∧ (∀ self x alpha theta σ,
       (DelayedAdstock_function delayed_adstock self x alpha theta σ).2 = σ)
  ∧ (∀ self x lam k σ,
       (WeibullAdstock_function weibull_adstock self x lam k σ).2 = σ)
  ∧ (∀ self parameters amount σ,
       (sample_curve _sample_curve self parameters amount σ).2 = σ)
  ∧ (∀ function kw σ l obj,
       heap σ !! l = Some obj →
       heap (_get_adstock_function function kw σ).2 !! l = Some obj).
Proof.
  split; [|split; [|split; [|split; [|split]]]].
  - intros cls kw σ Hacc. exists (Object cls (instance_attrs cls kw)).
    assert (Hf : ∀ p, p ∈ descriptor_fields cls →
              instance_attrs cls kw !! p = bound cls kw p)
      by (intros; by apply instance_attrs_descriptor).
    split; [by apply construct_accepted|]. split; [done|]. split; [done|].
    intros p v Hp Hv. simpl. rewrite Hf by done. unfold bound. by rewrite Hv.
  - intros. apply GeometricAdstock_function_read_only.
  - intros. apply DelayedAdstock_function_read_only.
  - intros. apply WeibullAdstock_function_read_only.
  - intros. apply sample_curve_read_only.
  - intros. by apply get_preserves.
Qed.

Lemma deref_Some σ self obj :
  heap σ !! self = Some obj → deref self σ = (Ok obj, σ).
Proof. intros Ho. unfold deref. by rewrite Ho. Qed.

Lemma impulse_replicate (n : nat) (amount : float) :
  (0 < n)%nat →
  <[0%nat := amount]> (replicate n 0%float) = amount :: replicate (n - 1) 0%float.
Proof. destruct n; [lia|]. intros _. simpl. by rewrite Nat.sub_0_r. Qed.

(** C9: on an instance whose [l_max] is an integer [n >= 1], [sample_curve]
    hands [_sample_curve] a vector of length [n] whose first entry is
    [amount] (1.0 when not given) and whose other entries are zero, under
    the coordinate [time since exposure] = 0, 1, ..., n - 1; with [n = 0]
    the assignment to the first entry raises an [IndexError]. *)
Theorem sample_curve_unit_impulse (σ : state) (self : loc) (obj : object)
    (parameters : Dataset) (amount : option float) (n : Z) :
  heap σ !! self = Some obj →
  attrs obj !! "l_max" = Some (VInt n) →
  (1 ≤ n →
     sample_curve _sample_curve self parameters amount σ
     = (_sample_curve obj "adstock" parameters
          (default 1%float amount :: replicate (Z.to_nat n - 1) 0%float)
          [("time since exposure", seqZ 0 n)], σ)
     ∧ length (default 1%float amount :: replicate (Z.to_nat n - 1) 0%float)
       = Z.to_nat n
     ∧ length (seqZ 0 n) = Z.to_nat n
     ∧ (∀ i, 0 ≤ i < n → seqZ 0 n !! Z.to_nat i = Some i))
  ∧ (n = 0 →
     sample_curve _sample_curve self parameters amount σ = (Raise IndexError, σ)).
Proof.
  intros Ho Hl. split.
  - intros Hn. split; [|split; [|split]].
    + unfold sample_curve.
      rewrite (bind_Ok _ _ _ _ (getattr_Some _ _ _ _ _ Ho Hl)).
      unfold np_arange, lift at 1, bind at 1.
      rewrite (bind_Ok _ _ _ _ (getattr_Some _ _ _ _ _ Ho Hl)).
      unfold np_zeros.
      rewrite (proj2 (Z.ltb_ge n 0)) by lia.
      unfold lift at 1, bind at 1. unfold np_setitem.
      rewrite length_replicate, bool_decide_eq_true_2 by lia.
      unfold lift at 1, bind at 1.
      rewrite (bind_Ok _ _ _ _ (deref_Some _ _ _ Ho)).
      rewrite impulse_replicate by lia. done.
    + simpl. rewrite length_replicate. lia.
    + rewrite length_seqZ. lia.
    + intros i Hi. rewrite lookup_seqZ. split; lia.
  - intros ->. unfold sample_curve.
    rewrite (bind_Ok _ _ _ _ (getattr_Some _ _ _ _ _ Ho Hl)).
    unfold np_arange, lift at 1, bind at 1.
    by rewrite (bind_Ok _ _ _ _ (getattr_Some _ _ _ _ _ Ho Hl)).
Qed.

End MethodProperties.

(** X1, the calls delegate: on an instance constructed with [l_max], [normalize]
    and [mode] (and [kind] for [WeibullAdstock]), [function] returns what the
    transformer routine returns on the series, the parameters and the stored
    [l_max], [normalize] and [mode] for [GeometricAdstock] and
    [DelayedAdstock], and on the stored [l_max], [mode] and [kind] for
    [WeibullAdstock]. *)
Theorem function_delegates_to_transformer {tensor : Type}
    (geometric_adstock : tensor → tensor → value → value → value → result tensor)
    (delayed_adstock : tensor → tensor → tensor → value → value → value → result tensor)
    (weibull_adstock : tensor → tensor → tensor → value → value → value → result tensor)
    (l_max normalize mode kind : value) (x a b : tensor) (σ : state) :
  (bind (construct GeometricAdstock (config_kw l_max normalize mode))
        (λ self, GeometricAdstock_function geometric_adstock self x a) σ).1
    = geometric_adstock x a l_max normalize mode
  ∧ (bind (construct DelayedAdstock (config_kw l_max normalize mode))
          (λ self, DelayedAdstock_function delayed_adstock self x a b) σ).1
    = delayed_adstock x a b l_max normalize mode
  ∧ (bind (construct WeibullAdstock
             (<["kind" := kind]> (config_kw l_max normalize mode)))
          (λ self, WeibullAdstock_function weibull_adstock self x a b) σ).1
    = weibull_adstock x a b l_max mode kind.
Proof.
  assert (Hacc : ∀ cls, accepted cls (config_kw l_max normalize mode)).
  { intros cls. split.
    - unfold config_kw. rewrite !dom_insert_L, dom_empty_L.
      intros p. rewrite !elem_of_union, !elem_of_singleton.
      destruct cls; simpl; rewrite !elem_of_union, !elem_of_singleton; tauto.
    - exists l_max. done. }
  assert (HaccW : accepted WeibullAdstock
                    (<["kind" := kind]> (config_kw l_max normalize mode))).
  { split.
    - unfold config_kw. rewrite !dom_insert_L, dom_empty_L.
      intros p. simpl. rewrite !elem_of_union, !elem_of_singleton. tauto.
    - exists l_max. done. }
  assert (Hlast : ∀ (h : list object) o, (h ++ [o]) !! length h = Some o).
  { intros h o. by rewrite lookup_app_r, Nat.sub_diag by lia. }
  split; [|split].
  - unfold bind at 1. rewrite (construct_accepted _ _ _ (Hacc _)).
    erewrite GeometricAdstock_function_delegates; [done|apply Hlast|..];
      simpl;
      by rewrite instance_attrs_descriptor
        by (auto; by apply (bool_decide_unpack _)).
  - unfold bind at 1. rewrite (construct_accepted _ _ _ (Hacc _)).
    erewrite DelayedAdstock_function_delegates; [done|apply Hlast|..];
      simpl;
      by rewrite instance_attrs_descriptor
        by (auto; by apply (bool_decide_unpack _)).
  - unfold bind at 1. rewrite (construct_accepted _ _ _ HaccW).
    erewrite WeibullAdstock_function_delegates; [done|apply Hlast|..];
      simpl;
      by rewrite instance_attrs_descriptor
        by (auto; by apply (bool_decide_unpack _)).
Qed.

(** ** Worked instances *)


Lemma construct_geometric_3 :
  construct GeometricAdstock (<["l_max" := VInt 3]> ∅) initial
  = (Ok 0%nat, State [geometric_3] []).
Proof. reflexivity. Qed.

(** C9 on [GeometricAdstock(l_max=3)] with the default amount, and on
    [GeometricAdstock(l_max=0)]. *)
Lemma sample_curve_unit_impulse_witness :
  sample_curve echo_sample_curve 0%nat tt None (State [geometric_3] [])
    = (Ok ([1; 0; 0]%float, [("time since exposure", [0; 1; 2])]),
       State [geometric_3] [])
  ∧ sample_curve echo_sample_curve 0%nat tt (Some 2%float) (State [geometric_0] [])
    = (Raise IndexError, State [geometric_0] []).
Proof.
  split.
  - destruct (sample_curve_unit_impulse echo_sample_curve
                (State [geometric_3] []) 0%nat geometric_3 tt None 3) as [H _].
    + reflexivity.
    + reflexivity.
    + destruct H as [H _]; [lia | exact H].
  - destruct (sample_curve_unit_impulse echo_sample_curve
                (State [geometric_0] []) 0%nat geometric_0 tt (Some 2%float) 0)
      as [_ H].
    + reflexivity.
    + reflexivity.
    + apply H. reflexivity.
Defined.

(** C7 on [WeibullAdstock(l_max=10, kind=WeibullType.CDF)]: the two given
    arguments and the two defaults are what the fields hold. *)
Lemma descriptor_fields_stored_and_kept_witness :
  ∃ obj,
    construct WeibullAdstock weibull_kw initial = (Ok 0%nat, State [obj] [])
    ∧ attrs obj !! "kind" = Some (VKind CDF)
    ∧ attrs obj !! "l_max" = Some (VInt 10)
    ∧ attrs obj !! "normalize" = Some (VBool true)
    ∧ attrs obj !! "mode" = Some (VMode After).
Proof.
  destruct (descriptor_fields_stored_and_kept
              (λ (_ _ : unit) _ _ _, Ok tt) (λ (_ _ _ : unit) _ _ _, Ok tt)
              (λ (_ _ _ : unit) _ _ _, Ok tt) echo_sample_curve) as [H _].
  destruct (H WeibullAdstock weibull_kw initial) as (obj & Hc & _ & Hb & _).
  - split.
    + apply (bool_decide_unpack _). vm_compute. exact I.
    + exists (VInt 10). reflexivity.
  - exists obj. split; [exact Hc|].
    assert (Hin : ∀ p, bool_decide (p ∈ descriptor_fields WeibullAdstock) = true →
              p ∈ descriptor_fields WeibullAdstock)
      by (intros p; apply bool_decide_eq_true).
    repeat split; (rewrite Hb; [reflexivity | by apply Hin]).
Defined.


(** ** Further properties of construction and of the helper *)

Lemma construct_warnings_irrelevant cls kw h w w' :
  (construct cls kw (State h w)).1 = (construct cls kw (State h w')).1
  ∧ heap (construct cls kw (State h w)).2 = heap (construct cls kw (State h w')).2
  ∧ warnings (construct cls kw (State h w)).2 = w.
Proof.
  destruct (decide (accepted cls kw)) as [Hacc|Hrej].
  - by rewrite !(construct_accepted _ _ _ Hacc).
  - by rewrite !(construct_rejected _ _ _ Hrej).
Qed.

(** X3: looking a class up by its own [lookup_name] is calling the class:
    for every class and all keyword arguments, accepted or not, the helper
    gives the result of the direct call and the same objects; the only
    difference is the deprecation warning, added when there is a keyword. *)
Theorem helper_agrees_with_direct_call (cls : class) (kw : gmap string value)
    (σ : state) :
  (_get_adstock_function (Name (lookup_name cls)) kw σ).1 = (construct cls kw σ).1
  ∧ heap (_get_adstock_function (Name (lookup_name cls)) kw σ).2
    = heap (construct cls kw σ).2
  ∧ warnings (_get_adstock_function (Name (lookup_name cls)) kw σ).2
    = warnings (construct cls kw σ).2
        ++ (if bool_decide (kw ≠ ∅)
            then [Warning deprecation_message DeprecationWarning] else []).
Proof.
  assert (Hget : dict_get ADSTOCK_TRANSFORMATIONS (lookup_name cls) = Some cls)
    by (by apply registry_get).
  rewrite (get_registered _ _ _ _ Hget). destruct σ as [h w].
  case_bool_decide.
  - unfold warned. simpl.
    destruct (construct_warnings_irrelevant cls kw h
                (w ++ [Warning deprecation_message DeprecationWarning]) w)
      as (-> & -> & ->).
    destruct (construct_warnings_irrelevant cls kw h w w) as (_ & _ & ->). done.
  - destruct (construct_warnings_irrelevant cls kw h w w) as (_ & _ & ->).
    by rewrite app_nil_r.
Qed.

(** X4: the helper does not cache. Two calls with the same registered name
    and the same accepted keyword arguments return two different instances
    of the same class with the same attributes, and the second call leaves
    the first instance as it was. *)
Theorem two_calls_give_distinct_instances (name : string) (cls : class)
    (kw : gmap string value) (σ : state) :
  dict_get ADSTOCK_TRANSFORMATIONS name = Some cls →
  accepted cls kw →
  ∃ l1 l2 σ1 σ2 obj,
    _get_adstock_function (Name name) kw σ = (Ok l1, σ1)
    ∧ _get_adstock_function (Name name) kw σ1 = (Ok l2, σ2)
    ∧ l1 ≠ l2
    ∧ heap σ1 !! l1 = Some obj
    ∧ heap σ2 !! l1 = Some obj
    ∧ heap σ2 !! l2 = Some obj
    ∧ class_of obj = cls
    ∧ length (heap σ2) = S (S (length (heap σ))).
Proof.
  intros Hget Hacc.
  destruct (registered_name_constructs_instance_aux name cls kw σ Hget Hacc)
    as (o1 & Hr1 & Hh1 & ->).
  destruct (_get_adstock_function (Name name) kw σ) as [r1 σ1] eqn:E1.
  simpl in Hr1, Hh1. subst r1.
  destruct (registered_name_constructs_instance_aux name cls kw σ1 Hget Hacc)
    as (o2 & Hr2 & Hh2 & ->).
  destruct (_get_adstock_function (Name name) kw σ1) as [r2 σ2] eqn:E2.
  simpl in Hr2, Hh2. subst r2.
  exists (length (heap σ)), (length (heap σ1)), σ1, σ2,
    (Object cls (instance_attrs cls kw)).
  assert (Hlen : length (heap σ1) = S (length (heap σ)))
    by (rewrite Hh1, length_app; simpl; lia).
  repeat split; try done.
  - lia.
  - rewrite Hh1. by rewrite lookup_app_r, Nat.sub_diag by lia.
  - rewrite Hh2, Hh1. rewrite lookup_app_l by (rewrite length_app; simpl; lia).
    by rewrite lookup_app_r, Nat.sub_diag by lia.
  - rewrite Hh2. by rewrite lookup_app_r, Nat.sub_diag by lia.
  - rewrite Hh2, length_app. simpl. lia.
Qed.

(** X4 at the name weibull with [l_max=10, kind=WeibullType.CDF]. *)
Lemma two_calls_give_distinct_instances_witness :
  ∃ l1 l2 σ1 σ2 obj,
    _get_adstock_function (Name "weibull") weibull_kw initial = (Ok l1, σ1)
    ∧ _get_adstock_function (Name "weibull") weibull_kw σ1 = (Ok l2, σ2)
    ∧ l1 ≠ l2
    ∧ heap σ1 !! l1 = Some obj
    ∧ heap σ2 !! l1 = Some obj
    ∧ heap σ2 !! l2 = Some obj
    ∧ class_of obj = WeibullAdstock
    ∧ length (heap σ2) = S (S (length (heap initial))).
Proof.
  apply (two_calls_give_distinct_instances "weibull" WeibullAdstock weibull_kw initial).
  - reflexivity.
  - split.
    + apply (bool_decide_unpack _). vm_compute. exact I.
    + exists (VInt 10). reflexivity.
Defined.

(** X9: a call of the helper that raises leaves no object behind, whatever
    was raised and even if the warning has been emitted by then; a call that
    returns either hands back the instance it was given, with the store
    untouched, or returns the one object it has added to the store. *)
Theorem failed_call_leaves_no_object (function : function_arg)
    (kw : gmap string value) (σ : state) :
  (∀ e, (_get_adstock_function function kw σ).1 = Raise e →
     heap (_get_adstock_function function kw σ).2 = heap σ)
  ∧ (∀ l, (_get_adstock_function function kw σ).1 = Ok l →
       (function = Instance l ∧ (_get_adstock_function function kw σ).2 = σ)
       ∨ (∃ name obj, function = Name name
            ∧ l = length (heap σ)
            ∧ heap σ !! l = None
            ∧ heap (_get_adstock_function function kw σ).2 = heap σ ++ [obj]
            ∧ lookup_name (class_of obj) = name)).
Proof.
  destruct function as [name|self|a]; cycle 1.
  { simpl. split; [done|]. intros l [= <-]. by left. }
  { rewrite get_other. simpl. split; [done|].
    intros l Hl. by destruct (hashable a). }
  destruct (registered_or_unknown name) as [(cls & Hget & Hin)|Hno].
  - rewrite (get_registered _ _ _ _ Hget).
    set (σw := if bool_decide (kw ≠ ∅) then warned σ else σ).
    assert (Hh : heap σw = heap σ) by (unfold σw; by case_bool_decide).
    destruct (construct_cases cls kw σw) as [[Hacc ->]|[Hrej ->]]; simpl.
    + split; [done|]. intros l [= <-]. right.
      exists name, (Object cls (instance_attrs cls kw)). rewrite Hh.
      repeat split; try done.
      * apply lookup_ge_None. lia.
      * simpl. symmetry. by apply registry_get.
    + split; [done | intros l Hl; discriminate Hl].
  - rewrite (get_unknown _ _ _ Hno). simpl. split; [done|].
    intros l Hl. discriminate Hl.
Qed.





(** ** Further properties of the methods *)

Lemma dom_eq_list_to_set {V} (m : gmap string V) (l : list string) :
  dom m = list_to_set l ↔
  dom m ⊆ list_to_set l ∧ ∀ k, k ∈ l → is_Some (m !! k).
Proof.
  split.
  - intros Heq. split; [by rewrite Heq|].
    intros k Hk. apply elem_of_dom. rewrite Heq. by apply elem_of_list_to_set.
  - intros [Hsub Hall]. apply set_eq. intros k. split; [apply Hsub|].
    intros Hk%elem_of_list_to_set. apply elem_of_dom. by apply Hall.
Qed.

Section FurtherMethodProperties.

Context {tensor : Type}.
Variable geometric_adstock :
  tensor → tensor → value → value → value → result tensor.
Variable delayed_adstock :
  tensor → tensor → tensor → value → value → value → result tensor.
Variable weibull_adstock :
  tensor → tensor → tensor → value → value → value → result tensor.
Context {Dataset DataArray : Type}.
Variable _sample_curve :
  object → string → Dataset → list float → list (string * list Z) → result DataArray.

(** X7: [sample_curve] needs a positive [l_max]. On an instance whose [l_max]
    is a negative integer it raises the [ValueError] of [np.zeros]; for any
    integer [l_max <= 0] it raises before [_sample_curve] is reached and
    leaves the store as it was; so it returns a curve only if [l_max >= 1]. *)
Theorem sample_curve_needs_positive_l_max (σ : state) (self : loc) (obj : object)
    (parameters : Dataset) (amount : option float) (n : Z) :
  heap σ !! self = Some obj →
  attrs obj !! "l_max" = Some (VInt n) →
  (n < 0 →
     sample_curve _sample_curve self parameters amount σ
     = (Raise (ValueError "negative dimensions are not allowed"), σ))
  ∧ (n ≤ 0 →
     ∃ e, sample_curve _sample_curve self parameters amount σ = (Raise e, σ)
       ∧ e = (if bool_decide (n = 0) then IndexError
              else ValueError "negative dimensions are not allowed"))
  ∧ (∀ curve, (sample_curve _sample_curve self parameters amount σ).1 = Ok curve →
       1 ≤ n).
Proof.
  intros Ho Hl.
  assert (Hneg : n < 0 →
            sample_curve _sample_curve self parameters amount σ
            = (Raise (ValueError "negative dimensions are not allowed"), σ)).
  { intros Hn. unfold sample_curve.
    rewrite (bind_Ok _ _ _ _ (getattr_Some _ _ _ _ _ Ho Hl)).
    unfold np_arange, lift at 1, bind at 1.
    rewrite (bind_Ok _ _ _ _ (getattr_Some _ _ _ _ _ Ho Hl)).
    unfold np_zeros. by rewrite (proj2 (Z.ltb_lt n 0)) by lia. }
  assert (Hzero : n = 0 →
            sample_curve _sample_curve self parameters amount σ
            = (Raise IndexError, σ)).
  { intros ->. unfold sample_curve.
    rewrite (bind_Ok _ _ _ _ (getattr_Some _ _ _ _ _ Ho Hl)).
    unfold np_arange, lift at 1, bind at 1.
    by rewrite (bind_Ok _ _ _ _ (getattr_Some _ _ _ _ _ Ho Hl)). }
  split; [done|]. split.
  - intros Hn. case_bool_decide as Hz.
    + exists IndexError. by rewrite Hzero.
    + eexists. split; [apply Hneg; lia | done].
  - intros curve Hc. destruct (decide (1 ≤ n)) as [|Hn]; [done|].
    destruct (decide (n = 0)) as [Hz|Hz].
    + rewrite (Hzero Hz) in Hc. discriminate Hc.
    + rewrite Hneg in Hc by lia. discriminate Hc.
Qed.

(** X8: a keyword call [self.function(x, **params)] goes through exactly when
    the names in [params] are the keys of the [default_priors] of the class of
    [self]: then it is the [function] of that class on the values under those
    names; with any other set of names it is a [TypeError] and the store is
    left as it was. *)
Theorem function_accepts_exactly_prior_names (σ : state) (self : loc)
    (obj : object) (x : tensor) (params : gmap string tensor) :
  heap σ !! self = Some obj →
  (dom params ≠ list_to_set (dict_keys (default_priors (class_of obj))) →
     function geometric_adstock delayed_adstock weibull_adstock self x params σ
     = (Raise TypeError, σ))
  ∧ (dom params = list_to_set (dict_keys (default_priors (class_of obj))) →
     match class_of obj with
     | GeometricAdstock =>
         ∃ alpha, params !! "alpha" = Some alpha
           ∧ function geometric_adstock delayed_adstock weibull_adstock
               self x params σ
             = GeometricAdstock_function geometric_adstock self x alpha σ
     | DelayedAdstock =>
         ∃ alpha theta, params !! "alpha" = Some alpha
           ∧ params !! "theta" = Some theta
           ∧ function geometric_adstock delayed_adstock weibull_adstock
               self x params σ
             = DelayedAdstock_function delayed_adstock self x alpha theta σ
     | WeibullAdstock =>
         ∃ lam k, params !! "lam" = Some lam
           ∧ params !! "k" = Some k
           ∧ function geometric_adstock delayed_adstock weibull_adstock
               self x params σ
             = WeibullAdstock_function weibull_adstock self x lam k σ
     end).
Proof.
  intros Ho. unfold function.
  rewrite (bind_Ok _ _ _ _ (deref_Some _ _ _ Ho)).
  assert (Hkeys : drop 2 (function_parameters (class_of obj))
                  = dict_keys (default_priors (class_of obj)))
    by (by destruct (class_of obj)).
  rewrite Hkeys. rewrite dom_eq_list_to_set.
  case_bool_decide as Hsub; cycle 1.
  { split; [done | by intros [? _]]. }
  unfold lift at 1, bind at 1.
  destruct (class_of obj); simpl; unfold function_argument.
  - destruct (params !! "alpha") as [a|] eqn:Ea.
    + split.
      * intros Hne. destruct Hne. split; [done|].
        intros k Hk. apply list_elem_of_singleton in Hk as ->. by eexists.
      * intros _. by exists a.
    + split; [done|]. intros [_ Hall].
      destruct (Hall "alpha") as [? ?]; [by left | congruence].
  - destruct (params !! "alpha") as [a|] eqn:Ea,
             (params !! "theta") as [t|] eqn:Et.
    + split.
      * intros Hne. destruct Hne. split; [done|].
        intros k Hk. apply elem_of_cons in Hk as [->|Hk]; [by eexists|].
        apply list_elem_of_singleton in Hk as ->. by eexists.
      * intros _. by exists a, t.
    + split; [done|]. intros [_ Hall].
      destruct (Hall "theta") as [? ?]; [right; by left | congruence].
    + split; [done|]. intros [_ Hall].
      destruct (Hall "alpha") as [? ?]; [by left | congruence].
    + split; [done|]. intros [_ Hall].
      destruct (Hall "alpha") as [? ?]; [by left | congruence].
  - destruct (params !! "lam") as [a|] eqn:Ea,
             (params !! "k") as [t|] eqn:Et.
    + split.
      * intros Hne. destruct Hne. split; [done|].
        intros k Hk. apply elem_of_cons in Hk as [->|Hk]; [by eexists|].
        apply list_elem_of_singleton in Hk as ->. by eexists.
      * intros _. by exists a, t.
    + split; [done|]. intros [_ Hall].
      destruct (Hall "k") as [? ?]; [right; by left | congruence].
    + split; [done|]. intros [_ Hall].
      destruct (Hall "lam") as [? ?]; [by left | congruence].
    + split; [done|]. intros [_ Hall].
      destruct (Hall "lam") as [? ?]; [by left | congruence].
Qed.

End FurtherMethodProperties.

(** X7 on [GeometricAdstock(l_max=-2)]. *)
Lemma sample_curve_needs_positive_l_max_witness :
  construct GeometricAdstock (<["l_max" := VInt (-2)]> ∅) initial
    = (Ok 0%nat, State [geometric_neg] [])
  ∧ sample_curve echo_sample_curve 0%nat tt None (State [geometric_neg] [])
    = (Raise (ValueError "negative dimensions are not allowed"),
       State [geometric_neg] []).
Proof.
  split; [reflexivity|].
  destruct (sample_curve_needs_positive_l_max echo_sample_curve
              (State [geometric_neg] []) 0%nat geometric_neg tt None (-2))
    as [H _].
  - reflexivity.
  - reflexivity.
  - apply H. lia.
Defined.

(** X8 on [GeometricAdstock(l_max=3)]: the keyword [alpha] goes through, the
    keyword [beta] does not. *)
Lemma function_accepts_exactly_prior_names_witness :
  (∃ alpha, ({["alpha" := 5]} : gmap string Z) !! "alpha" = Some alpha
     ∧ function sum_adstock2 sum_adstock3 sum_adstock3 0%nat 1 {["alpha" := 5]}
         (State [geometric_3] [])
       = GeometricAdstock_function sum_adstock2 0%nat 1 alpha (State [geometric_3] []))
  ∧ function sum_adstock2 sum_adstock3 sum_adstock3 0%nat 1 {["beta" := 5]}
      (State [geometric_3] [])
    = (Raise TypeError, State [geometric_3] []).
Proof.
  split.
  - destruct (function_accepts_exactly_prior_names sum_adstock2 sum_adstock3
                sum_adstock3 (State [geometric_3] []) 0%nat geometric_3 1
                {["alpha" := 5]}) as [_ H]; [reflexivity|].
    apply H. apply (bool_decide_unpack _). vm_compute. exact I.
  - destruct (function_accepts_exactly_prior_names sum_adstock2 sum_adstock3
                sum_adstock3 (State [geometric_3] []) 0%nat geometric_3 1
                {["beta" := 5]}) as [H _]; [reflexivity|].
    apply H. apply (bool_decide_unpack _). vm_compute. exact I.
Defined.
